(** * Nyx: the kernel boot stub [src/Source/Kernel/boot.cpp]

    [main] prints a greeting with [printf], initialises the embedded
    Python runtime, runs two source strings with [PyRun_SimpleString] and
    finalises the runtime, ignoring every result, then returns 0.

    The C library and the embedded runtime are external: they are modelled
    as an interface [call] whose answers come from a runtime [step]
    function over an abstract world state.  [main] itself is embedded as a
    program of the free monad over [call]: a tree of calls whose
    continuations receive the call's result. *)

From Stdlib Require Import String Ascii List ZArith Lia.
Import ListNotations.
Open Scope string_scope.

(** The one-character string holding a line feed (C's and Python's [\n]). *)
Definition newline : string := String (Ascii.ascii_of_nat 10) EmptyString.

(** ** The external interface used by [main] *)

(** The library entry points [main] calls, indexed by their C result type
    ([void] is [unit], [int] is [Z]). *)
Inductive call : Type -> Type :=
| printf : string -> call Z
| Py_Initialize : call unit
| PyRun_SimpleString : string -> call Z
| Py_Finalize : call unit
| exit : Z -> call unit.

(** Programs over [call]: return a value, or make a call and continue with
    its result. *)
Inductive prog (A : Type) : Type :=
| Ret : A -> prog A
| Vis : forall R, call R -> (R -> prog A) -> prog A.
Arguments Ret {A} _.
Arguments Vis {A R} _ _.

(** An expression statement [c;]: the call is made and its result dropped. *)
Definition discard {A R} (c : call R) (k : prog A) : prog A :=
  Vis c (fun _ => k).

(** ** [main] (boot.cpp, lines 4-11) *)

Definition greeting : string := "Hello from Nyx OS!" ++ newline.
Definition py_stmt1 : string := "print('Hello from Embedded Python')".
Definition py_stmt2 : string := "import sys" ++ newline ++ "print(sys.version)".

Definition main : prog Z :=
  discard (printf greeting)
  (discard Py_Initialize
  (discard (PyRun_SimpleString py_stmt1)
  (discard (PyRun_SimpleString py_stmt2)
  (discard Py_Finalize
  (Ret 0%Z))))).

(** ** Observations of a run *)

(** A call as it is seen from outside: its entry point and arguments. *)
Inductive event : Type :=
| ev_printf : string -> event
| ev_Py_Initialize : event
| ev_PyRun_SimpleString : string -> event
| ev_Py_Finalize : event
| ev_exit : Z -> event.

Definition event_of {R} (c : call R) : event :=
  match c with
  | printf s => ev_printf s
  | Py_Initialize => ev_Py_Initialize
  | PyRun_SimpleString s => ev_PyRun_SimpleString s
  | Py_Finalize => ev_Py_Finalize
  | exit z => ev_exit z
  end.

(** How the process ends: [main] returns a status, or a library call
    aborts the process (e.g. a fatal error of the runtime). *)
Inductive status : Type :=
| Exited : Z -> status
| Aborted : status.

Record result : Type := mk_result {
  trace : list event;      (** the calls issued, in order *)
  output : string;         (** everything written to standard output *)
  exit_status : status
}.

(** A runtime answers a call in a world state with its result, the next
    state and the text that reaches the standard-output file descriptor
    during the call, or ends the process inside the call ([None]; what the
    process writes while it ends is not modelled).  Text a library keeps in
    a buffer is part of the state and reaches the descriptor when a later
    call flushes it. *)
Definition runtime (S : Type) : Type :=
  forall R, call R -> S -> option (R * S * string).

Section Run.
Context {S : Type} (step : runtime S).

Fixpoint run (p : prog Z) (s : S) : result :=
  match p with
  | Ret z => mk_result [] "" (Exited z)
  | Vis c k =>
      match step _ c s with
      | None => mk_result [event_of c] "" Aborted
      | Some (r, s', o) =>
          let res := run (k r) s' in
          mk_result (event_of c :: trace res) (o ++ output res)
                    (exit_status res)
      end
  end.
End Run.

(** [prog] sequencing. *)
Fixpoint prog_bind {A B} (p : prog A) (k : A -> prog B) : prog B :=
  match p with
  | Ret a => k a
  | Vis c k' => Vis c (fun r => prog_bind (k' r) k)
  end.

(** The C start-up code around [main]: [exit(main())].  [exit] flushes the
    C library's stdio buffers and ends the process with [main]'s result. *)
Definition crt_start (p : prog Z) : prog Z :=
  prog_bind p (fun z => discard (exit z) (Ret z)).

(** The calls of a run of [main] that is not cut short. *)
Definition boot_sequence : list event :=
  [ev_printf greeting; ev_Py_Initialize; ev_PyRun_SimpleString py_stmt1;
   ev_PyRun_SimpleString py_stmt2; ev_Py_Finalize].

(** ** General facts about runs of [main] *)

Ltac split_steps :=
  repeat match goal with
         | |- context [?st ?R ?c ?s] =>
             match type of st with
             | runtime _ => destruct (st R c s) as [[[? ?] ?]|] eqn:?; cbn
             end
         end.

(** Every run of [main] either issues the whole boot sequence and exits
    with 0, or is aborted during its [n]-th call, having issued exactly the
    first [n] calls of the sequence. *)
Lemma run_main_cases {S} (step : runtime S) (s : S) :
  (trace (run step main s) = boot_sequence /\
   exit_status (run step main s) = Exited 0%Z)
  \/ (exists n, 1 <= n <= 5 /\
      trace (run step main s) = firstn n boot_sequence /\
      exit_status (run step main s) = Aborted).
Proof.
  unfold main, discard; cbn.
  split_steps.
  all: first [ left; split; reflexivity
             | right; exists 1; split; [lia | split; reflexivity]
             | right; exists 2; split; [lia | split; reflexivity]
             | right; exists 3; split; [lia | split; reflexivity]
             | right; exists 4; split; [lia | split; reflexivity]
             | right; exists 5; split; [lia | split; reflexivity] ].
Qed.

(** The same, as a prefix of the boot sequence: a run that is not aborted
    has issued all of it. *)
Lemma run_main_prefix {S} (step : runtime S) (s : S) :
  exists n, 1 <= n <= 5 /\
    trace (run step main s) = firstn n boot_sequence /\
    (exit_status (run step main s) <> Aborted -> n = 5).
Proof.
  destruct (run_main_cases step s) as [[Ht He] | [n [Hn [Ht He]]]].
  - exists 5; rewrite Ht; repeat split; lia.
  - exists n; rewrite Ht, He; repeat split; try lia; congruence.
Qed.

(** When no call aborts, the run issues the whole sequence and [main]
    returns 0. *)
Lemma run_main_total {S} (step : runtime S) (s : S) :
  (forall R (c : call R) s', step R c s' <> None) ->
  trace (run step main s) = boot_sequence /\
  exit_status (run step main s) = Exited 0%Z.
Proof.
  intros Hnone; unfold main, discard; cbn.
  split_steps; try (exfalso; eapply Hnone; eassumption).
  split; reflexivity.
Qed.

Lemma nth_error_prefix n i e :
  nth_error (firstn n boot_sequence) i = Some e ->
  i < n /\ nth_error boot_sequence i = Some e.
Proof.
  rewrite nth_error_firstn; destruct (Nat.ltb_spec i n); [|discriminate].
  auto.
Qed.

Lemma prefix_nth n i :
  i < n -> nth_error (firstn n boot_sequence) i = nth_error boot_sequence i.
Proof.
  intros H; rewrite nth_error_firstn; destruct (Nat.ltb_spec i n); [|lia].
  reflexivity.
Qed.

(** Case analysis on a position of the boot sequence holding [e]. *)
Ltac boot_position i H :=
  destruct i as [|[|[|[|[|i]]]]]; cbn in H;
  [ .. | destruct i; cbn in H; discriminate ];
  try discriminate.

(** Result-independence: a runtime whose results are replaced by arbitrary
    ones (same states, same output, same aborts). *)
Section Override.
Context {S : Type} (step : runtime S) (g : forall R, call R -> S -> R).

Definition override_results : runtime S :=
  fun R c s =>
    match step R c s with
    | Some (_, s', o) => Some (g R c s, s', o)
    | None => None
    end.
End Override.

(** The sources a trace submitted to the interpreter, in order. *)
Fixpoint py_sources (tr : list event) : list string :=
  match tr with
  | [] => []
  | ev_PyRun_SimpleString src :: tr' => src :: py_sources tr'
  | _ :: tr' => py_sources tr'
  end.

(** ** A world with process input, and a CPython-like runtime over it *)

Inductive phase : Type := Uninitialized | Initialized | Finalized.

(** How Python's [sys.stdout] buffers: unbuffered and write-through
    ([PYTHONUNBUFFERED]), line-buffered (a terminal), or block-buffered. *)
Inductive py_buffering : Type := PyUnbuffered | PyLineBuffered | PyBlockBuffered.

(** The process input: arguments, environment and standard input. *)
Record process_input : Type := mk_input {
  argv : list string;
  environ : list (string * string);
  stdin : string
}.

(** What the libraries keep: whether descriptor 1 is a terminal, C's
    [stdout] buffer, and the embedded interpreter's state with its
    [sys.stdout] buffer and [sys.version]. *)
Record machine : Type := mk_machine {
  m_stdout_tty : bool;
  m_c_buf : string;
  m_phase : phase;
  m_py_mode : py_buffering;
  m_py_buf : string;
  m_sys_version : string
}.

Record world : Type := mk_world {
  w_input : process_input;
  w_machine : machine
}.

Definition with_machine (w : world) (m : machine) : world :=
  mk_world (w_input w) m.

Definition with_c_buf (m : machine) (b : string) : machine :=
  mk_machine (m_stdout_tty m) b (m_phase m) (m_py_mode m) (m_py_buf m)
             (m_sys_version m).

Definition with_py (m : machine) (ph : phase) (mode : py_buffering)
  (b ver : string) : machine :=
  mk_machine (m_stdout_tty m) (m_c_buf m) ph mode b ver.

Definition with_py_buf (m : machine) (b : string) : machine :=
  with_py m (m_phase m) (m_py_mode m) b (m_sys_version m).

(** C's [getenv]: the first binding of [name]. *)
Fixpoint getenv (name : string) (env : list (string * string)) : option string :=
  match env with
  | [] => None
  | (k, v) :: env' => if String.eqb k name then Some v else getenv name env'
  end.

(** CPython's reading of its environment variables: an empty value counts
    as unset. *)
Definition py_getenv (name : string) (env : list (string * string)) : option string :=
  match getenv name env with
  | Some v => if String.eqb v "" then None else Some v
  | None => None
  end.

Definition nl_char : ascii := Ascii.ascii_of_nat 10.

Definition has_newline (s : string) : bool :=
  existsb (Ascii.eqb nl_char) (list_ascii_of_string s).

(** Split a buffer after its last newline: the complete lines, the rest. *)
Fixpoint line_split (s : string) : string * string :=
  match s with
  | EmptyString => ("", "")
  | String a s' =>
      match line_split s' with
      | (EmptyString, r) =>
          if Ascii.eqb a nl_char then (String a EmptyString, r)
          else (EmptyString, String a r)
      | (p, r) => (String a p, r)
      end
  end.

(** A write to C's [stdout] (glibc): line-buffered on a terminal (the
    complete lines are written out), fully buffered otherwise; a buffer
    that would exceed its size is written out.  The result is the new
    buffer and the text written to descriptor 1. *)
Definition c_write (tty : bool) (bufsize : nat) (buf s : string) : string * string :=
  let b := buf ++ s in
  if Nat.ltb bufsize (String.length b) then ("", b)
  else if tty then let (p, r) := line_split b in (r, p)
  else (b, "").

(** A write to Python's [sys.stdout]: written through when unbuffered, the
    whole buffer flushed on a newline when line-buffered, and flushed when
    it would exceed its size. *)
Definition py_write (mode : py_buffering) (bufsize : nat) (buf s : string)
  : string * string :=
  let b := buf ++ s in
  match mode with
  | PyUnbuffered => ("", b)
  | PyLineBuffered =>
      if orb (has_newline s) (Nat.ltb bufsize (String.length b)) then ("", b) else (b, "")
  | PyBlockBuffered => if Nat.ltb bufsize (String.length b) then ("", b) else (b, "")
  end.

(** A runtime instance after the documented behaviour of glibc and CPython.
    [printf] (given formats without conversion specifications) writes
    through C's [stdout] buffer, which [exit] flushes.  [Py_Initialize]
    reads the environment: it ends the process when [PYTHONHOME] names a
    directory without a standard library; it chooses the buffering of
    [sys.stdout] from [PYTHONUNBUFFERED] and whether descriptor 1 is a
    terminal; its import of [site] ([site_init], depending on the
    environment, e.g. a [sitecustomize] found through [PYTHONPATH]) may
    print through [sys.stdout], rebind [sys.version], or end the process.
    [PyRun_SimpleString] returns 0, or -1 when the source raises (the
    traceback goes to standard error); using the interpreter while it is
    not initialised crashes the process.  [Py_Finalize] flushes
    [sys.stdout], and does nothing on an interpreter not initialised.  The
    interpreted fragment is printing a string literal and printing
    [sys.version] after importing [sys]. *)
Section CPython.
Variable version : string.
Variable stdlib_homes : list string.
Variable site_init : list (string * string) -> option (string * option string).
Variables c_bufsize py_bufsize : nat.

Definition home_usable (env : list (string * string)) : bool :=
  match py_getenv "PYTHONHOME" env with
  | None => true
  | Some h => existsb (String.eqb h) stdlib_homes
  end.

Definition py_mode_of (env : list (string * string)) (tty : bool) : py_buffering :=
  match py_getenv "PYTHONUNBUFFERED" env with
  | Some _ => PyUnbuffered
  | None => if tty then PyLineBuffered else PyBlockBuffered
  end.

Definition print_literal (src : string) : option string :=
  let body := substring 7 (String.length src - 9) src in
  if (String.eqb src ("print('" ++ body ++ "')")
     && negb (existsb (Ascii.eqb "'"%char) (list_ascii_of_string body)))%bool
  then Some body else None.

Definition py_exec (sys_version src : string) : Z * string :=
  match print_literal src with
  | Some lit => (0%Z, lit ++ newline)
  | None =>
      if String.eqb src ("import sys" ++ newline ++ "print(sys.version)")
      then (0%Z, sys_version ++ newline)
      else ((-1)%Z, "")
  end.

Definition cpython : runtime world :=
  fun R c =>
    match c in call R return world -> option (R * world * string) with
    | printf fmt => fun w =>
        let m := w_machine w in
        let (b, o) := c_write (m_stdout_tty m) c_bufsize (m_c_buf m) fmt in
        Some (Z.of_nat (String.length fmt), with_machine w (with_c_buf m b), o)
    | Py_Initialize => fun w =>
        let m := w_machine w in
        let env := environ (w_input w) in
        match m_phase m with
        | Initialized => Some (tt, w, "")
        | _ =>
            if home_usable env then
              match site_init env with
              | None => None
              | Some (printed, ver') =>
                  let mode := py_mode_of env (m_stdout_tty m) in
                  let ver := match ver' with Some v => v | None => version end in
                  let (b, o) := py_write mode py_bufsize "" printed in
                  Some (tt, with_machine w (with_py m Initialized mode b ver), o)
              end
            else None
        end
    | PyRun_SimpleString src => fun w =>
        let m := w_machine w in
        match m_phase m with
        | Initialized =>
            let (r, text) := py_exec (m_sys_version m) src in
            let (b, o) := py_write (m_py_mode m) py_bufsize (m_py_buf m) text in
            Some (r, with_machine w (with_py_buf m b), o)
        | _ => None
        end
    | Py_Finalize => fun w =>
        let m := w_machine w in
        match m_phase m with
        | Initialized =>
            Some (tt, with_machine w (with_py m Finalized (m_py_mode m) ""
                                              (m_sys_version m)), m_py_buf m)
        | _ => Some (tt, w, "")
        end
    | exit _ => fun w =>
        let m := w_machine w in
        Some (tt, with_machine w (with_c_buf m ""), m_c_buf m)
    end.
End CPython.

(** A process started with the given input, descriptor 1 a terminal or
    not, the interpreter not initialised. *)
Definition start (argv : list string) (env : list (string * string))
  (stdin : string) (tty : bool) : world :=
  mk_world (mk_input argv env stdin)
           (mk_machine tty "" Uninitialized PyBlockBuffered "" "").

(** An installation whose [site] import prints nothing and leaves
    [sys.version] alone, with glibc's and CPython's usual buffer sizes. *)
Definition no_site (env : list (string * string)) : option (string * option string) :=
  Some ("", None).

Definition cpython_3_12 : runtime world :=
  cpython "3.12.3" ["/usr"] no_site 4096 8192.

(** A stub runtime answering every call without output or failure. *)
Definition quiet_runtime : runtime unit :=
  fun R c _ =>
    match c in call R return option (R * unit * string) with
    | printf fmt => Some (Z.of_nat (String.length fmt), tt, "")
    | Py_Initialize => Some (tt, tt, "")
    | PyRun_SimpleString _ => Some (0%Z, tt, "")
    | Py_Finalize => Some (tt, tt, "")
    | exit _ => Some (tt, tt, "")
    end.

Example cpython_tty_example :
  output (run cpython_3_12 (crt_start main) (start ["nyx"] [] "" true)) =
  greeting ++ "Hello from Embedded Python" ++ newline ++ "3.12.3" ++ newline.
Proof. reflexivity. Qed.

Example empty_pythonhome_example :
  exit_status (run cpython_3_12 (crt_start main)
                   (start ["nyx"] [("PYTHONHOME", "")] "" false)) = Exited 0%Z.
Proof. reflexivity. Qed.


(** The interpreter sources of every run of [main]. *)
Lemma run_main_py_sources {S} (step : runtime S) (s : S) :
  let srcs := py_sources (trace (run step main s)) in
  (exists m, m <= 2 /\ srcs = firstn m [py_stmt1; py_stmt2]) /\
  (exit_status (run step main s) <> Aborted ->
     srcs = [py_stmt1; py_stmt2] /\ length srcs = 2).
Proof.
  cbv zeta.
  destruct (run_main_prefix step s) as [n [Hn [Ht Hfull]]].
  rewrite Ht; split.
  - destruct n as [|[|[|[|[|[|n]]]]]]; try lia;
      [exists 0 | exists 0 | exists 1 | exists 2 | exists 2];
      split; (lia || reflexivity).
  - intros Hna; rewrite (Hfull Hna); split; reflexivity.
Qed.




(** ** Claims *)








(** C2 (as stated fails): the run whose [Py_Initialize] ends the process
    ([PYTHONHOME] naming a directory without a standard library) issues
    only [printf] and [Py_Initialize], not the whole sequence. *)
Lemma C2_counterexample :
  trace (run cpython_3_12 main
             (start ["nyx"] [("PYTHONHOME", "/nonexistent")] "" true)) <>
  [ev_printf greeting; ev_Py_Initialize; ev_PyRun_SimpleString py_stmt1;
   ev_PyRun_SimpleString py_stmt2; ev_Py_Finalize].
Proof. vm_compute; discriminate. Qed.

(** C2 (amended): every run issues the calls [printf], [Py_Initialize],
    [PyRun_SimpleString] twice and [Py_Finalize], in this order and nothing
    else, for every runtime and world state: a run the runtime ends inside
    a call has issued a prefix of that sequence, and every run that is not
    ended early has issued all of it. *)
Theorem C2_linear_boot_sequence {S} (step : runtime S) (s : S) :
  let tr := trace (run step main s) in
  (exists n, 1 <= n <= 5 /\
     tr = firstn n [ev_printf greeting; ev_Py_Initialize;
                    ev_PyRun_SimpleString py_stmt1;
                    ev_PyRun_SimpleString py_stmt2; ev_Py_Finalize]) /\
  (exit_status (run step main s) <> Aborted ->
     tr = [ev_printf greeting; ev_Py_Initialize;
           ev_PyRun_SimpleString py_stmt1;
           ev_PyRun_SimpleString py_stmt2; ev_Py_Finalize]).
Proof.
  cbv zeta.
  destruct (run_main_prefix step s) as [n [Hn [Ht Hfull]]].
  split.
  - exists n; split; [exact Hn | exact Ht].
  - intros Hna; rewrite Ht, (Hfull Hna); reflexivity.
Qed.

(** C3: in every run each [PyRun_SimpleString] comes after a
    [Py_Initialize], no [PyRun_SimpleString] comes after [Py_Finalize],
    and in a run that is not aborted each [PyRun_SimpleString] is followed
    by a [Py_Finalize]. *)
Theorem C3_interpreter_init_use_finalize_order {S} (step : runtime S) (s : S) :
  let tr := trace (run step main s) in
  (forall i src, nth_error tr i = Some (ev_PyRun_SimpleString src) ->
     exists k, k < i /\ nth_error tr k = Some ev_Py_Initialize) /\
  (forall i j src, i < j -> nth_error tr i = Some ev_Py_Finalize ->
     nth_error tr j <> Some (ev_PyRun_SimpleString src)) /\
  (exit_status (run step main s) <> Aborted ->
   forall i src, nth_error tr i = Some (ev_PyRun_SimpleString src) ->
     exists k, i < k /\ nth_error tr k = Some ev_Py_Finalize).
Proof.
  cbv zeta.
  destruct (run_main_prefix step s) as [n [Hn [Ht Hfull]]].
  rewrite Ht; split; [|split].
  - intros i src H.
    apply nth_error_prefix in H as [Hi H].
    boot_position i H;
      exists 1; (split; [lia | rewrite prefix_nth by lia; reflexivity]).
  - intros i j src Hij H Hj.
    apply nth_error_prefix in H as [Hi H].
    apply nth_error_prefix in Hj as [Hj' Hj].
    boot_position i H; lia.
  - intros Hna i src H; specialize (Hfull Hna); subst n.
    apply nth_error_prefix in H as [Hi H].
    boot_position i H; exists 4; split; try lia; reflexivity.
Qed.

(** C4: no result is checked: replacing every result the runtime returns
    ([printf]'s, [Py_Initialize]'s, both [PyRun_SimpleString]'s and
    [Py_Finalize]'s) by arbitrary ones changes nothing in the run, and
    whenever [main] returns, it returns 0. *)
Theorem C4_results_unchecked {S} (step : runtime S)
  (g : forall R, call R -> S -> R) (s : S) :
  run (override_results step g) main s = run step main s /\
  (forall z, exit_status (run step main s) = Exited z -> z = 0%Z).
Proof.
  split.
  - unfold main, discard, override_results; cbn.
    split_steps; reflexivity.
  - intros z Hz.
    destruct (run_main_cases step s) as [[_ He] | [n [_ [_ He]]]];
      rewrite He in Hz; congruence.
Qed.



(** C6: [main] consults no state and does not branch: any two runs that
    are not aborted, of any runtimes from any world states, issue the same
    calls with the same arguments and end with the same exit status. *)
Theorem C6_deterministic {S1 S2} (step1 : runtime S1) (step2 : runtime S2)
  (s1 : S1) (s2 : S2) :
  exit_status (run step1 main s1) <> Aborted ->
  exit_status (run step2 main s2) <> Aborted ->
  trace (run step1 main s1) = trace (run step2 main s2) /\
  exit_status (run step1 main s1) = exit_status (run step2 main s2).
Proof.
  intros H1 H2.
  destruct (run_main_cases step1 s1) as [[Ht1 He1] | [? [_ [_ He1]]]];
    [|contradiction].
  destruct (run_main_cases step2 s2) as [[Ht2 He2] | [? [_ [_ He2]]]];
    [|contradiction].
  rewrite Ht1, Ht2, He1, He2; split; reflexivity.
Qed.

Lemma C6_deterministic_witness :
  exit_status (run cpython_3_12 main (start ["nyx"] [] "" true)) <> Aborted /\
  exit_status (run quiet_runtime main tt) <> Aborted /\
  trace (run cpython_3_12 main (start ["nyx"] [] "" true)) =
    trace (run quiet_runtime main tt) /\
  exit_status (run cpython_3_12 main (start ["nyx"] [] "" true)) =
    exit_status (run quiet_runtime main tt).
Proof.
  assert (H1 : exit_status (run cpython_3_12 main
                                (start ["nyx"] [] "" true)) <> Aborted)
    by (vm_compute; discriminate).
  assert (H2 : exit_status (run quiet_runtime main tt) <> Aborted)
    by (vm_compute; discriminate).
  split; [exact H1 | split; [exact H2 |]].
  exact (C6_deterministic cpython_3_12 quiet_runtime _ _ H1 H2).
Defined.

(** C7: assuming every library call returns, every run reaches the
    [return] statement: it ends with exit status 0 after exactly five
    calls. *)
Theorem C7_terminates {S} (step : runtime S) (s : S) :
  (forall R (c : call R) s', step R c s' <> None) ->
  exit_status (run step main s) = Exited 0%Z /\
  length (trace (run step main s)) = 5.
Proof.
  intros Hnone.
  destruct (run_main_total step s Hnone) as [Ht He].
  rewrite Ht, He; split; reflexivity.
Qed.

Lemma C7_terminates_witness :
  (forall R (c : call R) s', quiet_runtime R c s' <> None) /\
  exit_status (run quiet_runtime main tt) = Exited 0%Z /\
  length (trace (run quiet_runtime main tt)) = 5.
Proof.
  assert (H : forall R (c : call R) s', quiet_runtime R c s' <> None)
    by (intros R c []; destruct c; cbn; discriminate).
  split; [exact H|].
  exact (C7_terminates quiet_runtime tt H).
Defined.

(** C8 (defect in [main]): with standard output a pipe or a file, the
    greeting [printf] writes stays in C's buffer, which [main] never
    flushes, while [Py_Finalize] flushes the interpreter's lines; the
    greeting reaches standard output last, at [exit], and the first line is
    the interpreter's greeting. *)
Lemma C8_pipe_output_order :
  output (run cpython_3_12 (crt_start main) (start ["nyx"] [] "" false)) =
  ("Hello from Embedded Python" ++ newline) ++ ("3.12.3" ++ newline) ++
  ("Hello from Nyx OS!" ++ newline).
Proof. vm_compute; reflexivity. Qed.

(** C9: the sources submitted to the interpreter are, in order, exactly
    ["print('Hello from Embedded Python')"] and the single two-line source
    ["import sys"], newline, ["print(sys.version)"]: in a run that is not
    aborted these are the only two submissions; an aborted run submitted a
    prefix of them. *)
Theorem C9_statement_texts {S} (step : runtime S) (s : S) :
  let srcs := py_sources (trace (run step main s)) in
  (exists m, srcs = firstn m ["print('Hello from Embedded Python')";
                              "import sys" ++ newline ++ "print(sys.version)"]) /\
  (exit_status (run step main s) <> Aborted ->
     srcs = ["print('Hello from Embedded Python')";
             "import sys" ++ newline ++ "print(sys.version)"]).
Proof.
  cbv zeta.
  destruct (run_main_py_sources step s) as [[m [_ Hm]] Hfull].
  split.
  - exists m; exact Hm.
  - intros Hna; exact (proj1 (Hfull Hna)).
Qed.



